(** * libhal-armcortex: the package recipe [conanfile.py]

    A shallow embedding of the recipe class [libhal_arm_cortex_conan] and
    of its three methods [requirements], [package_info] and [package_id].

    The recipe object ([self]) is a record; every method is a computation
    in a small state-and-exception monad over that record, so that the
    statements of a method body appear here in the order in which the
    Python source runs them.  Settings are optional strings (a setting the
    profile leaves out is [None]); option sets are finite maps from option
    names to booleans, and reading or deleting an option that is not in
    the set raises, as it does in Python. *)

From Stdlib Require Import Ascii.
From stdpp Require Import base option list strings gmap fin_maps.

Local Open Scope string_scope.
Local Open Scope list_scope.

(** ** Python primitives used by the recipe *)

(** [s.startswith(p)]. *)
Fixpoint startswith (p s : string) : bool :=
  match p, s with
  | EmptyString, _ => true
  | String a p', String b s' => bool_decide (a = b) && startswith p' s'
  | String _ _, EmptyString => false
  end.

(** [s.endswith(c)] for a one-character suffix [c]. *)
Fixpoint endswith_char (c : ascii) (s : string) : bool :=
  match s with
  | EmptyString => false
  | String a EmptyString => bool_decide (a = c)
  | String _ s' => endswith_char c s'
  end.

(** [sub in s]: the substring test of Python strings. *)
Fixpoint str_in (sub s : string) : bool :=
  startswith sub s ||
  match s with
  | EmptyString => false
  | String _ s' => str_in sub s'
  end.

(** What [sub in s] decides: [s] is [pre + sub + post] for some [pre],
    [post]. *)
Definition contains (s sub : string) : Prop :=
  ∃ pre post, s = pre +:+ sub +:+ post.

(** [os.path.join(a, b)] with two arguments, as [posixpath.join] computes
    it: an absolute [b] replaces [a]; otherwise [b] is appended, after a
    separator unless [a] is empty or already ends with one. *)
Definition os_path_join (a b : string) : string :=
  if startswith "/" b then b
  else if bool_decide (a = "") || endswith_char "/"%char a then a +:+ b
  else a +:+ "/" +:+ b.

(** ** Settings *)

(** [settings = "compiler", "build_type", "os", "arch"]; [compiler] has the
    sub-setting [compiler.version].  A value is [None] when it is not
    set. *)
Record Settings := {
  compiler : option string;
  compiler_version : option string;
  build_type : option string;
  os : option string;
  arch : option string
}.

(** [str(v)] of a settings value: the value itself, or ["None"]. *)
Definition str (v : option string) : string :=
  match v with
  | Some x => x
  | None => "None"
  end.

(** [v == lit] of a settings value and a string literal. *)
Definition setting_eq (v : option string) (lit : string) : bool :=
  match v with
  | Some x => bool_decide (x = lit)
  | None => false
  end.

(** ** Requirements, build information and the recipe object *)

(** One [self.requires(ref, transitive_headers=...)] declaration.
    [transitive_headers] is [None] when the keyword is not passed. *)
Record Requirement := {
  ref : string;
  transitive_headers : option bool
}.

(** [self.cpp_info]. *)
Record CppInfo := {
  libs : list string;
  properties : gmap string string;
  exelinkflags : list string
}.

(** The recipe object: what the package manager hands to the methods
    ([settings], [options], and [info_options] for [self.info.options],
    its copy of the option set) and what the methods fill in. *)
Record ConanFile := {
  settings : Settings;
  options : gmap string bool;
  declared_requires : list Requirement;
  cpp_info : CppInfo;
  info_options : gmap string bool
}.

Definition set_declared_requires (r : list Requirement) (s : ConanFile) : ConanFile :=
  {| settings := settings s; options := options s; declared_requires := r;
     cpp_info := cpp_info s; info_options := info_options s |}.

Definition set_cpp_info (c : CppInfo) (s : ConanFile) : ConanFile :=
  {| settings := settings s; options := options s;
     declared_requires := declared_requires s;
     cpp_info := c; info_options := info_options s |}.

Definition set_info_options (o : gmap string bool) (s : ConanFile) : ConanFile :=
  {| settings := settings s; options := options s;
     declared_requires := declared_requires s;
     cpp_info := cpp_info s; info_options := o |}.

(** ** The recipe monad: state passing with exceptions *)

(** The exception raised when an option that is not in the option set is
    read or deleted. *)
Inductive exception :=
  | MissingOption (field : string).

Inductive result (A : Type) :=
  | Ok (a : A)
  | Raise (e : exception).
Arguments Ok {A} a.
Arguments Raise {A} e.

Definition Recipe (A : Type) : Type := ConanFile → result (A * ConanFile).

#[global] Instance Recipe_ret : MRet Recipe := λ A a s, Ok (a, s).

#[global] Instance Recipe_bind : MBind Recipe := λ A B f m s,
  match m s with
  | Ok (a, s') => f a s'
  | Raise e => Raise e
  end.

(** [self]. *)
Definition self : Recipe ConanFile := λ s, Ok (s, s).

(** [if c: body] with no [else]. *)
Definition when (c : bool) (body : Recipe unit) : Recipe unit :=
  if c then body else mret tt.

(** [self.options.<field>]. *)
Definition option_attr (field : string) : Recipe bool := λ s,
  match options s !! field with
  | Some b => Ok (b, s)
  | None => Raise (MissingOption field)
  end.

(** [self.requires(ref, transitive_headers=th)]: the declaration is
    recorded after those made so far. *)
Definition requires (r : string) (th : option bool) : Recipe unit := λ s,
  Ok (tt, set_declared_requires
            (declared_requires s ++ [{| ref := r; transitive_headers := th |}]) s).

(** [self.cpp_info.libs = l]. *)
Definition assign_libs (l : list string) : Recipe unit := λ s,
  Ok (tt, set_cpp_info {| libs := l; properties := properties (cpp_info s);
                          exelinkflags := exelinkflags (cpp_info s) |} s).

(** [self.cpp_info.set_property(k, v)]. *)
Definition set_property (k v : string) : Recipe unit := λ s,
  Ok (tt, set_cpp_info {| libs := libs (cpp_info s);
                          properties := <[k := v]> (properties (cpp_info s));
                          exelinkflags := exelinkflags (cpp_info s) |} s).

(** [self.cpp_info.exelinkflags = l]. *)
Definition assign_exelinkflags (l : list string) : Recipe unit := λ s,
  Ok (tt, set_cpp_info {| libs := libs (cpp_info s);
                          properties := properties (cpp_info s);
                          exelinkflags := l |} s).

(** [self.cpp_info.exelinkflags.append(f)]. *)
Definition exelinkflags_append (f : string) : Recipe unit := λ s,
  Ok (tt, set_cpp_info {| libs := libs (cpp_info s);
                          properties := properties (cpp_info s);
                          exelinkflags := exelinkflags (cpp_info s) ++ [f] |} s).

(** [del self.info.options.<field>]. *)
Definition del_info_option (field : string) : Recipe unit := λ s,
  match info_options s !! field with
  | Some _ => Ok (tt, set_info_options (delete field (info_options s)) s)
  | None => Raise (MissingOption field)
  end.

(** ** The recipe *)

(** [options]: the two declared option names (each ranges over
    [True, False]). *)
Definition option_names : list string := ["use_libhal_exceptions"; "use_picolibc"].

Definition default_options : gmap string bool :=
  <["use_libhal_exceptions" := true]> (<["use_picolibc" := true]> ∅).

(** An option set of this recipe carries a value for both declared
    options. *)
Definition well_formed (o : gmap string bool) : Prop :=
  is_Some (o !! "use_libhal_exceptions") ∧ is_Some (o !! "use_picolibc").

(** A package reference is [name/version]: the name is what precedes the
    first slash, the version what follows it. *)
Fixpoint package_name (r : string) : string :=
  match r with
  | EmptyString => EmptyString
  | String c r' => if bool_decide (c = "/"%char) then EmptyString
                   else String c (package_name r')
  end.

Fixpoint package_version (r : string) : string :=
  match r with
  | EmptyString => EmptyString
  | String c r' => if bool_decide (c = "/"%char) then r' else package_version r'
  end.

(** The requirements of a list that name package [n]. *)
Definition named (n : string) (l : list Requirement) : list Requirement :=
  filter (λ r, package_name (ref r) = n) l.

(** A recipe object as the package manager sets it up for a run on
    platform [p] and option set [o]: it carries the platform, the option
    set, and the copy of the option set that [package_id] reduces.  The
    outputs may hold anything. *)
Definition run_on (p : Settings) (o : gmap string bool) (s : ConanFile) : Prop :=
  settings s = p ∧ options s = o ∧ info_options s = o.

(** The platform and option set of the example of the specification, and
    a fresh recipe object for them. *)
Definition example_settings : Settings :=
  {| compiler := Some "gcc"; compiler_version := Some "12.2";
     build_type := Some "MinSizeRel"; os := Some "baremetal";
     arch := Some "cortex-m4" |}.

Definition new_recipe (p : Settings) (o : gmap string bool) : ConanFile :=
  {| settings := p; options := o; declared_requires := [];
     cpp_info := {| libs := []; properties := ∅; exelinkflags := [] |};
     info_options := o |}.

Definition example_recipe : ConanFile := new_recipe example_settings default_options.

(** The same inputs in a recipe object whose outputs are not fresh. *)
Definition stale_recipe : ConanFile :=
  set_cpp_info {| libs := ["stale"]; properties := <["stale" := "yes"]> ∅;
                  exelinkflags := ["-Lstale"] |}
    (set_declared_requires [{| ref := "stale/1.0"; transitive_headers := None |}]
       example_recipe).

(** A host platform, where none of the baremetal branches applies. *)
Definition linux_settings : Settings :=
  {| compiler := Some "gcc"; compiler_version := Some "12.2";
     build_type := Some "Release"; os := Some "Linux";
     arch := Some "x86_64" |}.

(** What [add_library_requirements] is taken to declare in the examples. *)
Definition example_library_requirements : list Requirement :=
  [ {| ref := "libhal/[^4.0.0]"; transitive_headers := Some true |};
    {| ref := "libhal-util/[^5.0.0]"; transitive_headers := Some true |} ].

(** The default options with [use_picolibc] removed, and the option set
    with both options off. *)
Definition options_without_picolibc : gmap string bool :=
  delete "use_picolibc" default_options.

Definition options_off : gmap string bool :=
  <["use_libhal_exceptions" := false]> (<["use_picolibc" := false]> ∅).

(** The example platform with another architecture and build type, and
    with another compiler version and build type. *)
Definition cortex_m7_debug_settings : Settings :=
  {| compiler := Some "gcc"; compiler_version := Some "12.2";
     build_type := Some "Debug"; os := Some "baremetal";
     arch := Some "cortex-m7" |}.

Definition gcc13_debug_settings : Settings :=
  {| compiler := Some "gcc"; compiler_version := Some "13.2";
     build_type := Some "Debug"; os := Some "baremetal";
     arch := Some "cortex-m4" |}.

Section recipe.

(** The requirements that [add_library_requirements] of the
    [libhal-bootstrap] package declares on the recipe.  That helper belongs
    to another package; the recipe only calls it. *)
Variable library_requirements : list Requirement.

(** [self.package_folder]: where the package manager installed the
    package.  The recipe only reads it. *)
Variable package_folder : string.

(** [bootstrap.module.add_library_requirements(self)], with [bootstrap]
    the [libhal-bootstrap] entry of [self.python_requires]: one [requires]
    call for each library requirement, in order. *)
Fixpoint add_library_requirements (l : list Requirement) : Recipe unit :=
  match l with
  | [] => mret tt
  | r :: l' => requires (ref r) (transitive_headers r) ;; add_library_requirements l'
  end.

Definition requirements : Recipe unit :=
  add_library_requirements library_requirements ;;
  me ← self;
  if setting_eq (os (settings me)) "baremetal" &&
     setting_eq (compiler (settings me)) "gcc"
  then
    use_libhal_exceptions ← option_attr "use_libhal_exceptions";
    when use_libhal_exceptions
      (requires "libhal-exceptions/[^1.0.0]" (Some true)) ;;
    use_picolibc ← option_attr "use_picolibc";
    when use_picolibc
      (let compiler_version := str (compiler_version (settings me)) in
       requires ("prebuilt-picolibc/" +:+ compiler_version) None)
  else mret tt.

Definition package_info : Recipe unit :=
  assign_libs ["libhal-armcortex"] ;;
  set_property "cmake_target_name" "libhal::armcortex" ;;
  assign_exelinkflags [] ;;
  me ← self;
  if setting_eq (os (settings me)) "baremetal" &&
     setting_eq (compiler (settings me)) "gcc" &&
     str_in "cortex-" (str (arch (settings me)))
  then
    let linker_path := os_path_join package_folder "linker_scripts" in
    exelinkflags_append ("-L" +:+ linker_path)
  else mret tt.

Definition package_id : Recipe unit :=
  del_info_option "use_picolibc" ;;
  del_info_option "use_libhal_exceptions".

(** *** Outcomes of a call, as seen from the caller

    Each says what the call returns on [s] and, through the setter, that
    every other field of the recipe object is left as it was. *)

(** [requirements] declares [deps] (after what was declared before), or
    raises. *)
Definition requirements_outcome (s : ConanFile) (r : result (list Requirement)) : Prop :=
  requirements s =
    match r with
    | Ok deps => Ok (tt, set_declared_requires (declared_requires s ++ deps) s)
    | Raise e => Raise e
    end.

(** [package_info] leaves library names [l] and linker flags [f], and the
    target name among the properties. *)
Definition package_info_outcome (s : ConanFile) (l f : list string) : Prop :=
  package_info s =
    Ok (tt, set_cpp_info
              {| libs := l;
                 properties := <["cmake_target_name" := "libhal::armcortex"]>
                                 (properties (cpp_info s));
                 exelinkflags := f |} s).

(** [package_id] leaves the reduced option set [o], or raises. *)
Definition package_id_outcome (s : ConanFile) (r : result (gmap string bool)) : Prop :=
  package_id s =
    match r with
    | Ok o => Ok (tt, set_info_options o s)
    | Raise e => Raise e
    end.

(** ** Strings *)

Lemma startswith_spec p s : startswith p s = true ↔ ∃ post, s = p +:+ post.
Proof.
  revert s. induction p as [|a p IH]; intros s; simpl.
  - split; [intros _; by exists s | done].
  - destruct s as [|b s]; simpl.
    + split; [done | intros [post Hp]; discriminate Hp].
    + rewrite andb_true_iff, bool_decide_eq_true, IH. split.
      * intros [-> [post ->]]. by exists post.
      * intros [post Hp]. injection Hp as -> ->. eauto.
Qed.

Lemma str_in_spec sub s : str_in sub s = true ↔ contains s sub.
Proof.
  unfold contains. split.
  - induction s as [|c s IH]; simpl; rewrite orb_true_iff.
    + intros [H|H]; [|done]. apply startswith_spec in H as [post ->].
      by exists "", post.
    + intros [H|H].
      * apply startswith_spec in H as [post ->]. by exists "", post.
      * destruct (IH H) as (pre & post & ->). by exists (String c pre), post.
  - intros (pre & post & ->). induction pre as [|c pre IH]; simpl.
    + destruct (sub +:+ post) eqn:E; simpl; apply orb_true_iff; left;
        apply startswith_spec; exists post; by rewrite E.
    + apply orb_true_iff. by right.
Qed.

Lemma str_in_false sub s : str_in sub s = false ↔ ¬ contains s sub.
Proof. rewrite <-str_in_spec. by destruct (str_in sub s). Qed.

Lemma setting_eq_spec v lit : setting_eq v lit = true ↔ v = Some lit.
Proof.
  destruct v as [x|]; simpl; [|done].
  rewrite bool_decide_eq_true. split; [by intros -> | by intros [= ->]].
Qed.

Lemma package_name_picolibc v :
  package_name ("prebuilt-picolibc/" +:+ v) = "prebuilt-picolibc".
Proof. reflexivity. Qed.

Lemma package_version_picolibc v :
  package_version ("prebuilt-picolibc/" +:+ v) = v.
Proof. reflexivity. Qed.

(** ** Running the monad *)

Lemma bind_Ok {A B} (m : Recipe A) (f : A → Recipe B) s a s' :
  m s = Ok (a, s') → (m ≫= f) s = f a s'.
Proof. intros H. unfold mbind, Recipe_bind. by rewrite H. Qed.

Lemma bind_Raise {A B} (m : Recipe A) (f : A → Recipe B) s e :
  m s = Raise e → (m ≫= f) s = Raise e.
Proof. intros H. unfold mbind, Recipe_bind. by rewrite H. Qed.

Lemma set_declared_requires_id s :
  set_declared_requires (declared_requires s) s = s.
Proof. by destruct s. Qed.

Lemma set_declared_requires_twice r r' s :
  set_declared_requires r (set_declared_requires r' s) = set_declared_requires r s.
Proof. done. Qed.

Lemma add_library_requirements_run l s :
  add_library_requirements l s =
    Ok (tt, set_declared_requires (declared_requires s ++ l) s).
Proof.
  revert s. induction l as [|r l IH]; intros s; simpl.
  - by rewrite app_nil_r, set_declared_requires_id.
  - erewrite bind_Ok by reflexivity. rewrite IH. simpl.
    rewrite set_declared_requires_twice, <-app_assoc. by destruct r.
Qed.

(** ** What each method does, branch by branch *)

Lemma requirements_unmatched s :
  setting_eq (os (settings s)) "baremetal" &&
    setting_eq (compiler (settings s)) "gcc" = false →
  requirements s =
    Ok (tt, set_declared_requires (declared_requires s ++ library_requirements) s).
Proof.
  intros Hgate. unfold requirements.
  erewrite bind_Ok by apply add_library_requirements_run.
  erewrite bind_Ok by reflexivity. simpl. by rewrite Hgate.
Qed.

Lemma requirements_matched s (e p : bool) :
  setting_eq (os (settings s)) "baremetal" &&
    setting_eq (compiler (settings s)) "gcc" = true →
  options s !! "use_libhal_exceptions" = Some e →
  options s !! "use_picolibc" = Some p →
  requirements s =
    Ok (tt, set_declared_requires
              (declared_requires s ++ library_requirements ++
               (if e then [{| ref := "libhal-exceptions/[^1.0.0]";
                              transitive_headers := Some true |}] else []) ++
               (if p then [{| ref := "prebuilt-picolibc/" +:+
                                       str (compiler_version (settings s));
                              transitive_headers := None |}] else [])) s).
Proof.
  intros Hgate He Hp. unfold requirements.
  erewrite bind_Ok by apply add_library_requirements_run.
  erewrite bind_Ok by reflexivity. simpl. rewrite Hgate.
  erewrite bind_Ok by (unfold option_attr; simpl; by rewrite He).
  destruct e, p; simpl;
    (erewrite bind_Ok by reflexivity);
    (erewrite bind_Ok by (unfold option_attr; simpl; by rewrite Hp));
    simpl; unfold requires, mret, Recipe_ret; simpl;
    rewrite ?set_declared_requires_twice, <-?app_assoc, ?app_nil_r; done.
Qed.

Lemma requirements_missing_exceptions s :
  setting_eq (os (settings s)) "baremetal" &&
    setting_eq (compiler (settings s)) "gcc" = true →
  options s !! "use_libhal_exceptions" = None →
  requirements s = Raise (MissingOption "use_libhal_exceptions").
Proof.
  intros Hgate He. unfold requirements.
  erewrite bind_Ok by apply add_library_requirements_run.
  erewrite bind_Ok by reflexivity. simpl. rewrite Hgate.
  apply bind_Raise. unfold option_attr; simpl. by rewrite He.
Qed.

Lemma requirements_missing_picolibc s e :
  setting_eq (os (settings s)) "baremetal" &&
    setting_eq (compiler (settings s)) "gcc" = true →
  options s !! "use_libhal_exceptions" = Some e →
  options s !! "use_picolibc" = None →
  requirements s = Raise (MissingOption "use_picolibc").
Proof.
  intros Hgate He Hp. unfold requirements.
  erewrite bind_Ok by apply add_library_requirements_run.
  erewrite bind_Ok by reflexivity. simpl. rewrite Hgate.
  erewrite bind_Ok by (unfold option_attr; simpl; by rewrite He).
  destruct e; simpl; (erewrite bind_Ok by reflexivity);
    apply bind_Raise; unfold option_attr; simpl; by rewrite Hp.
Qed.

Lemma package_info_run s :
  package_info s =
    Ok (tt, set_cpp_info
              {| libs := ["libhal-armcortex"];
                 properties := <["cmake_target_name" := "libhal::armcortex"]>
                                 (properties (cpp_info s));
                 exelinkflags :=
                   if setting_eq (os (settings s)) "baremetal" &&
                      setting_eq (compiler (settings s)) "gcc" &&
                      str_in "cortex-" (str (arch (settings s)))
                   then ["-L" +:+ os_path_join package_folder "linker_scripts"]
                   else [] |} s).
Proof.
  unfold package_info.
  do 4 (erewrite bind_Ok by reflexivity). simpl.
  match goal with |- context [if ?b then _ else _] => by destruct b end.
Qed.

Lemma package_id_run s :
  package_id s =
    match info_options s !! "use_picolibc",
          info_options s !! "use_libhal_exceptions" with
    | Some _, Some _ =>
        Ok (tt, set_info_options
                  (delete "use_libhal_exceptions"
                     (delete "use_picolibc" (info_options s))) s)
    | Some _, None => Raise (MissingOption "use_libhal_exceptions")
    | None, _ => Raise (MissingOption "use_picolibc")
    end.
Proof.
  unfold package_id.
  destruct (info_options s !! "use_picolibc") as [p|] eqn:Hp.
  - erewrite bind_Ok by (unfold del_info_option; by rewrite Hp).
    unfold del_info_option; simpl. rewrite lookup_delete_ne by done.
    by destruct (info_options s !! "use_libhal_exceptions").
  - destruct (info_options s !! "use_libhal_exceptions");
      apply bind_Raise; unfold del_info_option; by rewrite Hp.
Qed.

Lemma baremetal_gcc_matched (p : Settings) :
  os p = Some "baremetal" → compiler p = Some "gcc" →
  setting_eq (os p) "baremetal" && setting_eq (compiler p) "gcc" = true.
Proof. intros -> ->. reflexivity. Qed.

Lemma baremetal_gcc_unmatched (p : Settings) :
  os p ≠ Some "baremetal" ∨ compiler p ≠ Some "gcc" →
  setting_eq (os p) "baremetal" && setting_eq (compiler p) "gcc" = false.
Proof.
  intros H. apply andb_false_iff.
  destruct H as [H|H]; [left | right];
    apply not_true_is_false; by rewrite setting_eq_spec.
Qed.

(** ** Properties of [requirements] *)

(** C1.  On a baremetal platform with the gcc compiler, for an option set
    with [use_picolibc] true, [requirements] declares, after the library
    requirements, exactly one requirement on [prebuilt-picolibc]; its
    reference is ["prebuilt-picolibc/"] followed by
    [str(compiler.version)], so that its version is that string,
    unchanged. *)
Theorem picolibc_version_is_compiler_version s :
  os (settings s) = Some "baremetal" →
  compiler (settings s) = Some "gcc" →
  well_formed (options s) →
  options s !! "use_picolibc" = Some true →
  ∃ own,
    requirements_outcome s (Ok (library_requirements ++ own)) ∧
    ref <$> named "prebuilt-picolibc" own =
      ["prebuilt-picolibc/" +:+ str (compiler_version (settings s))] ∧
    package_version <$> (ref <$> named "prebuilt-picolibc" own) =
      [str (compiler_version (settings s))].
Proof.
  intros Hos Hcc [[e He] _] Hp.
  eexists. split.
  - unfold requirements_outcome.
    by erewrite requirements_matched by eauto using baremetal_gcc_matched.
  - by destruct e.
Qed.

(** C5.  On a baremetal platform with the gcc compiler, [requirements]
    declares [libhal-exceptions] exactly once, with
    [transitive_headers=True], when [use_libhal_exceptions] is true, and
    not at all when it is false: among everything the call declares, the
    requirements that name [libhal-exceptions] are those of the library
    helper (which is not the recipe's) followed by that one, or by none. *)
Theorem libhal_exceptions_once_or_absent s (e : bool) :
  os (settings s) = Some "baremetal" →
  compiler (settings s) = Some "gcc" →
  well_formed (options s) →
  options s !! "use_libhal_exceptions" = Some e →
  ∃ deps,
    requirements_outcome s (Ok deps) ∧
    named "libhal-exceptions" deps =
      named "libhal-exceptions" library_requirements ++
      (if e then [{| ref := "libhal-exceptions/[^1.0.0]";
                     transitive_headers := Some true |}]
       else []).
Proof.
  intros Hos Hcc [_ [p Hp]] He.
  eexists. split.
  - unfold requirements_outcome.
    by erewrite requirements_matched by eauto using baremetal_gcc_matched.
  - unfold named. rewrite filter_app. f_equal. by destruct e, p.
Qed.

(** C9.  On a baremetal platform with the gcc compiler and with
    [use_picolibc] true, the requirement on [prebuilt-picolibc] is declared
    without the [transitive_headers] keyword, whereas every requirement on
    [libhal-exceptions] that the method declares has it set to [True]. *)
Theorem picolibc_headers_not_transitive s :
  os (settings s) = Some "baremetal" →
  compiler (settings s) = Some "gcc" →
  well_formed (options s) →
  options s !! "use_picolibc" = Some true →
  ∃ own,
    requirements_outcome s (Ok (library_requirements ++ own)) ∧
    transitive_headers <$> named "prebuilt-picolibc" own = [None] ∧
    ∀ r, r ∈ named "libhal-exceptions" own → transitive_headers r = Some true.
Proof.
  intros Hos Hcc [[e He] _] Hp.
  eexists. split.
  - unfold requirements_outcome.
    by erewrite requirements_matched by eauto using baremetal_gcc_matched.
  - destruct e; (split; [done|]); intros r Hr.
    + by apply list_elem_of_singleton in Hr as ->.
    + by apply elem_of_nil in Hr.
Qed.

(** C6.  [requirements] raises nothing on any platform and any
    well-formed option set, whatever the settings hold (unset ones
    included): it returns, having declared the library requirements and
    its own, and its own are none when the platform is not baremetal with
    gcc or when both options are false. *)
Theorem requirements_total s :
  well_formed (options s) →
  ∃ own,
    requirements_outcome s (Ok (library_requirements ++ own)) ∧
    (os (settings s) ≠ Some "baremetal" ∨ compiler (settings s) ≠ Some "gcc" →
     own = []) ∧
    (options s !! "use_libhal_exceptions" = Some false →
     options s !! "use_picolibc" = Some false → own = []).
Proof.
  intros [[e He] [p Hp]]. unfold requirements_outcome.
  destruct (setting_eq (os (settings s)) "baremetal" &&
            setting_eq (compiler (settings s)) "gcc") eqn:Hgate.
  - eexists. split; [by erewrite requirements_matched by eauto|]. split.
    + intros H. apply baremetal_gcc_unmatched in H. congruence.
    + rewrite He, Hp. by intros [= ->] [= ->].
  - exists []. rewrite app_nil_r. by rewrite requirements_unmatched.
Qed.

(** ** Properties of [package_info] *)

(** C2.  On a baremetal platform with the gcc compiler, [package_info]
    leaves exactly one linker flag, ["-L"] followed by the join of the
    package folder and ["linker_scripts"], when the architecture string
    contains ["cortex-"], and no flag for any other architecture. *)
Theorem package_info_linker_flag s :
  os (settings s) = Some "baremetal" →
  compiler (settings s) = Some "gcc" →
  ∃ flags,
    package_info_outcome s ["libhal-armcortex"] flags ∧
    (contains (str (arch (settings s))) "cortex-" →
     flags = ["-L" +:+ os_path_join package_folder "linker_scripts"]) ∧
    (¬ contains (str (arch (settings s))) "cortex-" → flags = []).
Proof.
  intros Hos Hcc. eexists. split; [apply package_info_run|].
  rewrite baremetal_gcc_matched by done. simpl.
  split; intros H.
  - apply str_in_spec in H. by rewrite H.
  - apply str_in_false in H. by rewrite H.
Qed.

(** C8.  For every platform and option set, [package_info] returns and
    leaves the list of library names equal to [["libhal-armcortex"]]. *)
Theorem package_info_libs s :
  ∃ s', package_info s = Ok (tt, s') ∧ libs (cpp_info s') = ["libhal-armcortex"].
Proof. eexists. split; [apply package_info_run | done]. Qed.

(** C10.  For every platform and option set (no condition on the
    platform), [package_info] returns and leaves the property
    [cmake_target_name] set to ["libhal::armcortex"]. *)
Theorem package_info_cmake_target_name s :
  ∃ s', package_info s = Ok (tt, s') ∧
        properties (cpp_info s') !! "cmake_target_name" = Some "libhal::armcortex".
Proof.
  eexists. split; [apply package_info_run | simpl; apply lookup_insert_eq].
Qed.

(** C4.  On a platform whose operating system is not baremetal or whose
    compiler is not gcc, for every option set, [requirements] declares the
    library requirements and nothing else (so neither [libhal-exceptions]
    nor [prebuilt-picolibc]), and [package_info] leaves no linker flag. *)
Theorem other_platforms_add_nothing s :
  os (settings s) ≠ Some "baremetal" ∨ compiler (settings s) ≠ Some "gcc" →
  requirements_outcome s (Ok library_requirements) ∧
  package_info_outcome s ["libhal-armcortex"] [].
Proof.
  intros H. apply baremetal_gcc_unmatched in H. split.
  - by apply requirements_unmatched.
  - unfold package_info_outcome. rewrite package_info_run. by rewrite H.
Qed.

(** ** Properties of [package_id] *)

(** C3, as the code has it.  On an option set that holds both declared
    options, whatever their values, [package_id] returns the set without
    exactly these two keys: both are gone and every other key keeps its
    value.  On its own output it does not return the same set: the first
    deletion finds no option to delete and raises. *)
Theorem package_id_removes_both_options s :
  well_formed (info_options s) →
  ∃ reduced,
    package_id_outcome s (Ok reduced) ∧
    (∀ k, reduced !! k =
          if decide (k ∈ option_names) then None else info_options s !! k) ∧
    package_id_outcome (set_info_options reduced s)
      (Raise (MissingOption "use_picolibc")).
Proof.
  intros [[e He] [p Hp]].
  exists (delete "use_libhal_exceptions" (delete "use_picolibc" (info_options s))).
  split; [|split].
  - unfold package_id_outcome. by rewrite package_id_run, He, Hp.
  - intros k. unfold option_names. case_decide as Hk.
    + apply lookup_delete_None.
      apply elem_of_cons in Hk as [->|Hk]; [by left | right].
      apply list_elem_of_singleton in Hk as ->. apply lookup_delete_eq.
    + rewrite !lookup_delete_ne; [done | |];
        intros <-; apply Hk; repeat constructor.
  - unfold package_id_outcome. rewrite package_id_run. simpl.
    rewrite lookup_delete_ne by done. by rewrite lookup_delete_eq.
Qed.

(** ** Determinism *)

Lemma requirements_depends_on_inputs p o :
  ∃ r, ∀ s, settings s = p → options s = o → requirements_outcome s r.
Proof.
  destruct (setting_eq (os p) "baremetal" && setting_eq (compiler p) "gcc")
    eqn:Hgate;
    [destruct (o !! "use_libhal_exceptions") as [e|] eqn:He;
     [destruct (o !! "use_picolibc") as [u|] eqn:Hu|]|].
  - exists (Ok (library_requirements ++
        (if e then [{| ref := "libhal-exceptions/[^1.0.0]";
                       transitive_headers := Some true |}] else []) ++
        (if u then [{| ref := "prebuilt-picolibc/" +:+ str (compiler_version p);
                       transitive_headers := None |}] else []))).
    intros s Hs Ho. unfold requirements_outcome.
    rewrite (requirements_matched s e u) by (by rewrite ?Hs, ?Ho).
    by rewrite Hs.
  - exists (Raise (MissingOption "use_picolibc")).
    intros s Hs Ho. unfold requirements_outcome.
    by rewrite (requirements_missing_picolibc s e) by (by rewrite ?Hs, ?Ho).
  - exists (Raise (MissingOption "use_libhal_exceptions")).
    intros s Hs Ho. unfold requirements_outcome.
    by rewrite requirements_missing_exceptions by (by rewrite ?Hs, ?Ho).
  - exists (Ok library_requirements).
    intros s Hs Ho. unfold requirements_outcome.
    by rewrite requirements_unmatched by (by rewrite ?Hs).
Qed.

Lemma package_info_depends_on_inputs p :
  ∃ l f, ∀ s, settings s = p → package_info_outcome s l f.
Proof.
  exists ["libhal-armcortex"],
    (if setting_eq (os p) "baremetal" && setting_eq (compiler p) "gcc" &&
        str_in "cortex-" (str (arch p))
     then ["-L" +:+ os_path_join package_folder "linker_scripts"] else []).
  intros s <-. apply package_info_run.
Qed.

Lemma package_id_depends_on_inputs o :
  ∃ r, ∀ s, info_options s = o → package_id_outcome s r.
Proof.
  exists (match o !! "use_picolibc", o !! "use_libhal_exceptions" with
          | Some _, Some _ =>
              Ok (delete "use_libhal_exceptions" (delete "use_picolibc" o))
          | Some _, None => Raise (MissingOption "use_libhal_exceptions")
          | None, _ => Raise (MissingOption "use_picolibc")
          end).
  intros s <-. unfold package_id_outcome. rewrite package_id_run.
  by destruct (info_options s !! "use_picolibc"),
              (info_options s !! "use_libhal_exceptions").
Qed.

(** C7.  Two runs on the same platform and the same option set, on recipe
    objects whose outputs may differ, have the same outcome: [requirements]
    declares the same list of requirements (or raises the same exception),
    [package_info] leaves the same library names and the same linker flags,
    [package_id] leaves the same reduced option set (or raises the same
    exception).  Each outcome says as well that the call changes its own
    output only: the settings, the option set and the outputs of the other
    two methods are as they were. *)
Theorem recipe_deterministic p o s1 s2 :
  run_on p o s1 → run_on p o s2 →
  (∃ r, requirements_outcome s1 r ∧ requirements_outcome s2 r) ∧
  (∃ l f, package_info_outcome s1 l f ∧ package_info_outcome s2 l f) ∧
  (∃ r, package_id_outcome s1 r ∧ package_id_outcome s2 r).
Proof.
  intros (Hs1 & Ho1 & Hi1) (Hs2 & Ho2 & Hi2). split; [|split].
  - destruct (requirements_depends_on_inputs p o) as [r Hr]. exists r. auto.
  - destruct (package_info_depends_on_inputs p) as (l & f & Hlf).
    exists l, f. auto.
  - destruct (package_id_depends_on_inputs o) as [r Hr]. exists r. auto.
Qed.

(** ** Further properties: errors, composition, what each method reads *)

(** [requirements] in one equation, over the four ways a call can go. *)
Lemma requirements_run s :
  requirements s =
    if setting_eq (os (settings s)) "baremetal" &&
       setting_eq (compiler (settings s)) "gcc"
    then
      match options s !! "use_libhal_exceptions", options s !! "use_picolibc" with
      | Some e, Some p =>
          Ok (tt, set_declared_requires
                    (declared_requires s ++ library_requirements ++
                     (if (e : bool) then [{| ref := "libhal-exceptions/[^1.0.0]";
                                    transitive_headers := Some true |}] else []) ++
                     (if (p : bool) then [{| ref := "prebuilt-picolibc/" +:+
                                             str (compiler_version (settings s));
                                    transitive_headers := None |}] else [])) s)
      | Some _, None => Raise (MissingOption "use_picolibc")
      | None, _ => Raise (MissingOption "use_libhal_exceptions")
      end
    else
      Ok (tt, set_declared_requires (declared_requires s ++ library_requirements) s).
Proof.
  destruct (setting_eq (os (settings s)) "baremetal" &&
            setting_eq (compiler (settings s)) "gcc") eqn:Hgate;
    [|by apply requirements_unmatched].
  destruct (options s !! "use_libhal_exceptions") as [e|] eqn:He;
    [|by apply requirements_missing_exceptions].
  destruct (options s !! "use_picolibc") as [p|] eqn:Hp.
  - by apply requirements_matched.
  - by apply (requirements_missing_picolibc s e).
Qed.

Lemma baremetal_gcc_spec (p : Settings) :
  setting_eq (os p) "baremetal" && setting_eq (compiler p) "gcc" = true ↔
  os p = Some "baremetal" ∧ compiler p = Some "gcc".
Proof. by rewrite andb_true_iff, !setting_eq_spec. Qed.

(** X1.  [requirements] raises exactly on a baremetal platform with the
    gcc compiler whose option set lacks one of the two options; the
    exception names [use_libhal_exceptions] if that one is missing, and
    [use_picolibc] otherwise. *)
Theorem requirements_raises_iff s e :
  requirements s = Raise e ↔
  os (settings s) = Some "baremetal" ∧ compiler (settings s) = Some "gcc" ∧
  ((options s !! "use_libhal_exceptions" = None ∧
    e = MissingOption "use_libhal_exceptions") ∨
   (is_Some (options s !! "use_libhal_exceptions") ∧
    options s !! "use_picolibc" = None ∧
    e = MissingOption "use_picolibc")).
Proof.
  rewrite requirements_run.
  destruct (setting_eq (os (settings s)) "baremetal" &&
            setting_eq (compiler (settings s)) "gcc") eqn:Hgate.
  - apply baremetal_gcc_spec in Hgate as [Hos Hcc].
    destruct (options s !! "use_libhal_exceptions") as [x|],
             (options s !! "use_picolibc") as [y|];
      rewrite ?is_Some_alt; intuition congruence.
  - split; [discriminate|]. intros (Hos & Hcc & _).
    by rewrite (baremetal_gcc_matched _ Hos Hcc) in Hgate.
Qed.

(** X10.  Whatever the platform and the options, what [requirements]
    declares is the library requirements followed by a sublist of
    [libhal-exceptions] (headers transitive), [prebuilt-picolibc] (for the
    compiler version): never another package, never one of them twice,
    never in the other order. *)
Theorem requirements_declares_at_most_these s deps :
  requirements_outcome s (Ok deps) →
  ∃ own,
    deps = library_requirements ++ own ∧
    own `sublist_of`
      [ {| ref := "libhal-exceptions/[^1.0.0]"; transitive_headers := Some true |};
        {| ref := "prebuilt-picolibc/" +:+ str (compiler_version (settings s));
           transitive_headers := None |} ].
Proof.
  unfold requirements_outcome. rewrite requirements_run.
  destruct (setting_eq (os (settings s)) "baremetal" &&
            setting_eq (compiler (settings s)) "gcc").
  - destruct (options s !! "use_libhal_exceptions") as [e|]; [|discriminate].
    destruct (options s !! "use_picolibc") as [p|]; [|discriminate].
    intros [= H]. apply app_inv_head in H as <-.
    eexists. split; [done|].
    destruct e, p; simpl; repeat constructor.
  - intros [= H]. exists []. split.
    + apply app_inv_head in H as <-. by rewrite app_nil_r.
    + apply sublist_nil_l.
Qed.

(** X9.  [requirements] reads the operating system, the compiler and the
    options, and the compiler version only when [use_picolibc] is true:
    two recipe objects that agree on these have the same outcome, whatever
    their architecture and build type. *)
Theorem requirements_reads_only s1 s2 :
  os (settings s1) = os (settings s2) →
  compiler (settings s1) = compiler (settings s2) →
  options s1 = options s2 →
  (options s1 !! "use_picolibc" = Some true →
   compiler_version (settings s1) = compiler_version (settings s2)) →
  ∃ r, requirements_outcome s1 r ∧ requirements_outcome s2 r.
Proof.
  intros Hos Hcc Ho Hv. unfold requirements_outcome.
  rewrite !requirements_run, <-Hos, <-Hcc, <-Ho.
  destruct (setting_eq (os (settings s1)) "baremetal" &&
            setting_eq (compiler (settings s1)) "gcc").
  - destruct (options s1 !! "use_libhal_exceptions") as [e|];
      [|by exists (Raise (MissingOption "use_libhal_exceptions"))].
    destruct (options s1 !! "use_picolibc") as [[|]|].
    + eexists (Ok _). split; [done|]. by rewrite <-Hv.
    + by eexists (Ok _).
    + by exists (Raise (MissingOption "use_picolibc")).
  - by exists (Ok library_requirements).
Qed.

(** X8.  [package_info] reads the operating system, the compiler and the
    architecture only: two recipe objects that agree on these are left
    with the same library names and linker flags, whatever their options,
    compiler version and build type. *)
Theorem package_info_reads_only s1 s2 :
  os (settings s1) = os (settings s2) →
  compiler (settings s1) = compiler (settings s2) →
  arch (settings s1) = arch (settings s2) →
  ∃ l f, package_info_outcome s1 l f ∧ package_info_outcome s2 l f.
Proof.
  intros Hos Hcc Harch. unfold package_info_outcome.
  rewrite !package_info_run, <-Hos, <-Hcc, <-Harch. by eexists _, _.
Qed.

(** X4.  [package_info] is idempotent: a second call leaves the recipe
    object as the first call left it, because library names and linker
    flags are assigned afresh and the property is overwritten. *)
Theorem package_info_idempotent s :
  (package_info ;; package_info) s = package_info s.
Proof.
  erewrite bind_Ok by apply package_info_run.
  rewrite !package_info_run. simpl. by rewrite insert_insert_eq.
Qed.

(** X6.  [package_info] commutes with the other two methods: calling it
    before or after [requirements], or before or after [package_id],
    gives the same recipe object, or the same exception. *)
Theorem package_info_commutes s :
  (requirements ;; package_info) s = (package_info ;; requirements) s ∧
  (package_id ;; package_info) s = (package_info ;; package_id) s.
Proof.
  split.
  - erewrite (bind_Ok package_info) by apply package_info_run.
    destruct (requirements_depends_on_inputs (settings s) (options s)) as [r Hr].
    rewrite (Hr (set_cpp_info _ s)) by done.
    specialize (Hr s eq_refl eq_refl). unfold requirements_outcome in Hr.
    destruct r as [deps|e].
    + erewrite bind_Ok by exact Hr. by rewrite package_info_run.
    + by apply bind_Raise.
  - erewrite (bind_Ok package_info) by apply package_info_run.
    destruct (package_id_depends_on_inputs (info_options s)) as [r Hr].
    rewrite (Hr (set_cpp_info _ s)) by done.
    specialize (Hr s eq_refl). unfold package_id_outcome in Hr.
    destruct r as [o|e].
    + erewrite bind_Ok by exact Hr. by rewrite package_info_run.
    + by apply bind_Raise.
Qed.

(** X7.  [requirements] and [package_id] commute whenever at least one of
    them returns; when both raise, the exception is that of the one called
    first. *)
Theorem requirements_package_id_commute s :
  ((∃ x, requirements s = Ok x) ∨ (∃ x, package_id s = Ok x) →
   (requirements ;; package_id) s = (package_id ;; requirements) s) ∧
  (∀ e1 e2, requirements s = Raise e1 → package_id s = Raise e2 →
            (requirements ;; package_id) s = Raise e1 ∧
            (package_id ;; requirements) s = Raise e2).
Proof.
  destruct (requirements_depends_on_inputs (settings s) (options s)) as [r Hr].
  destruct (package_id_depends_on_inputs (info_options s)) as [q Hq].
  pose proof (Hr s eq_refl eq_refl) as Hrs.
  pose proof (Hq s eq_refl) as Hqs.
  unfold requirements_outcome in Hrs. unfold package_id_outcome in Hqs.
  split.
  - intros Hok. destruct r as [deps|e], q as [o|e'].
    + erewrite !bind_Ok by eassumption.
      rewrite (Hr (set_info_options o s)), (Hq (set_declared_requires _ s)) by done.
      done.
    + erewrite bind_Ok by eassumption.
      rewrite (Hq (set_declared_requires _ s)) by done.
      symmetry. by apply bind_Raise.
    + erewrite (bind_Ok package_id) by eassumption.
      rewrite (Hr (set_info_options o s)) by done.
      by apply bind_Raise.
    + destruct Hok as [[x Hx]|[x Hx]]; congruence.
  - intros e1 e2 H1 H2. split; by apply bind_Raise.
Qed.

(** X2.  [package_id] raises exactly when the option set it reduces lacks
    one of the two options; the exception names [use_picolibc] if that one
    is missing, and [use_libhal_exceptions] otherwise. *)
Theorem package_id_raises_iff s e :
  package_id s = Raise e ↔
  (info_options s !! "use_picolibc" = None ∧ e = MissingOption "use_picolibc") ∨
  (is_Some (info_options s !! "use_picolibc") ∧
   info_options s !! "use_libhal_exceptions" = None ∧
   e = MissingOption "use_libhal_exceptions").
Proof.
  rewrite package_id_run.
  destruct (info_options s !! "use_picolibc") as [x|],
           (info_options s !! "use_libhal_exceptions") as [y|];
    rewrite ?is_Some_alt; intuition congruence.
Qed.

(** X3.  The values of the two options do not reach the reduced option
    set: two option sets that hold both options and agree on every other
    key are reduced to the same set. *)
Theorem package_id_ignores_option_values s1 s2 :
  well_formed (info_options s1) →
  well_formed (info_options s2) →
  (∀ k, k ∉ option_names → info_options s1 !! k = info_options s2 !! k) →
  ∃ reduced,
    package_id_outcome s1 (Ok reduced) ∧ package_id_outcome s2 (Ok reduced).
Proof.
  intros [[e1 He1] [p1 Hp1]] [[e2 He2] [p2 Hp2]] Hother.
  exists (delete "use_libhal_exceptions" (delete "use_picolibc" (info_options s1))).
  unfold package_id_outcome.
  rewrite !package_id_run, He1, Hp1, He2, Hp2. split; [done|].
  do 3 f_equal. apply map_eq. intros k.
  destruct (decide (k = "use_libhal_exceptions")) as [->|Hk1];
    [by rewrite !lookup_delete_eq|].
  rewrite !(lookup_delete_ne _ "use_libhal_exceptions") by done.
  destruct (decide (k = "use_picolibc")) as [->|Hk2];
    [by rewrite !lookup_delete_eq|].
  rewrite !lookup_delete_ne by done. symmetry. apply Hother.
  unfold option_names. rewrite !elem_of_cons, elem_of_nil. tauto.
Qed.

(** X5.  On a baremetal platform with the gcc compiler, the declared
    requirements tell the option values: two calls that declare the same
    list were made with the same values of [use_libhal_exceptions] and of
    [use_picolibc]. *)
Theorem requirements_determine_options s1 s2 deps :
  os (settings s1) = Some "baremetal" → compiler (settings s1) = Some "gcc" →
  os (settings s2) = Some "baremetal" → compiler (settings s2) = Some "gcc" →
  requirements_outcome s1 (Ok deps) →
  requirements_outcome s2 (Ok deps) →
  options s1 !! "use_libhal_exceptions" = options s2 !! "use_libhal_exceptions" ∧
  options s1 !! "use_picolibc" = options s2 !! "use_picolibc".
Proof.
  intros Hos1 Hcc1 Hos2 Hcc2. unfold requirements_outcome.
  rewrite !requirements_run, !baremetal_gcc_matched by done.
  destruct (options s1 !! "use_libhal_exceptions") as [e1|]; [|discriminate].
  destruct (options s1 !! "use_picolibc") as [p1|]; [|discriminate].
  destruct (options s2 !! "use_libhal_exceptions") as [e2|]; [|discriminate].
  destruct (options s2 !! "use_picolibc") as [p2|]; [|discriminate].
  intros [= H1] [= H2].
  apply app_inv_head in H1, H2. subst deps.
  apply app_inv_head in H2.
  by destruct e1, p1, e2, p2.
Qed.

End recipe.

(** ** The example of the specification, and instances of the theorems *)

(** Platform baremetal, gcc 12.2, cortex-m4, both options true: the
    requirements are the library's, [libhal-exceptions] and
    [prebuilt-picolibc/12.2]; the only linker flag points into the package
    folder. *)
Example specification_example :
  requirements_outcome example_library_requirements example_recipe
    (Ok (example_library_requirements ++
         [ {| ref := "libhal-exceptions/[^1.0.0]"; transitive_headers := Some true |};
           {| ref := "prebuilt-picolibc/12.2"; transitive_headers := None |} ])) ∧
  package_info_outcome "/pkg" example_recipe
    ["libhal-armcortex"] ["-L/pkg/linker_scripts"].
Proof. split; reflexivity. Qed.

(** An unset compiler version goes through as the string ["None"]. *)
Example unset_version_passes_through :
  requirements_outcome []
    (new_recipe {| compiler := Some "gcc"; compiler_version := None;
                   build_type := None; os := Some "baremetal"; arch := None |}
                default_options)
    (Ok [ {| ref := "libhal-exceptions/[^1.0.0]"; transitive_headers := Some true |};
          {| ref := "prebuilt-picolibc/None"; transitive_headers := None |} ]).
Proof. reflexivity. Qed.

Lemma picolibc_version_example :
  ∃ own,
    requirements_outcome example_library_requirements example_recipe
      (Ok (example_library_requirements ++ own)) ∧
    ref <$> named "prebuilt-picolibc" own = ["prebuilt-picolibc/12.2"] ∧
    package_version <$> (ref <$> named "prebuilt-picolibc" own) = ["12.2"].
Proof.
  apply (picolibc_version_is_compiler_version
           example_library_requirements example_recipe).
  - reflexivity.
  - reflexivity.
  - split; eexists; reflexivity.
  - reflexivity.
Defined.

Lemma libhal_exceptions_example :
  ∃ deps,
    requirements_outcome example_library_requirements example_recipe (Ok deps) ∧
    named "libhal-exceptions" deps =
      [{| ref := "libhal-exceptions/[^1.0.0]"; transitive_headers := Some true |}].
Proof.
  apply (libhal_exceptions_once_or_absent
           example_library_requirements example_recipe true).
  - reflexivity.
  - reflexivity.
  - split; eexists; reflexivity.
  - reflexivity.
Defined.

Lemma picolibc_headers_example :
  ∃ own,
    requirements_outcome example_library_requirements example_recipe
      (Ok (example_library_requirements ++ own)) ∧
    transitive_headers <$> named "prebuilt-picolibc" own = [None] ∧
    ∀ r, r ∈ named "libhal-exceptions" own → transitive_headers r = Some true.
Proof.
  apply (picolibc_headers_not_transitive
           example_library_requirements example_recipe).
  - reflexivity.
  - reflexivity.
  - split; eexists; reflexivity.
  - reflexivity.
Defined.

Lemma requirements_total_example :
  ∃ own,
    requirements_outcome example_library_requirements
      (new_recipe linux_settings default_options)
      (Ok (example_library_requirements ++ own)) ∧
    own = [].
Proof.
  destruct (requirements_total example_library_requirements
              (new_recipe linux_settings default_options))
    as (own & Hout & Hunmatched & _).
  - split; eexists; reflexivity.
  - exists own. split; [exact Hout|].
    apply Hunmatched. left. simpl. discriminate.
Defined.

Lemma package_info_linker_flag_example :
  ∃ flags,
    package_info_outcome "/pkg" example_recipe ["libhal-armcortex"] flags ∧
    flags = ["-L/pkg/linker_scripts"].
Proof.
  destruct (package_info_linker_flag "/pkg" example_recipe)
    as (flags & Hout & Hcortex & _).
  - reflexivity.
  - reflexivity.
  - exists flags. split; [exact Hout|].
    apply Hcortex. exists "", "m4". reflexivity.
Defined.

Lemma other_platforms_example :
  requirements_outcome example_library_requirements
    (new_recipe linux_settings default_options)
    (Ok example_library_requirements) ∧
  package_info_outcome "/pkg" (new_recipe linux_settings default_options)
    ["libhal-armcortex"] [].
Proof.
  apply (other_platforms_add_nothing example_library_requirements "/pkg"
           (new_recipe linux_settings default_options)).
  left. simpl. discriminate.
Defined.

Lemma package_id_example :
  ∃ reduced,
    package_id_outcome example_recipe (Ok reduced) ∧
    (∀ k, reduced !! k =
          if decide (k ∈ option_names) then None
          else info_options example_recipe !! k) ∧
    package_id_outcome (set_info_options reduced example_recipe)
      (Raise (MissingOption "use_picolibc")).
Proof.
  apply (package_id_removes_both_options example_recipe).
  split; eexists; reflexivity.
Defined.

(** C3, as the specification has it, fails: on the default option set
    [package_id] returns the empty option set, and on that output it
    raises instead of returning it again. *)
Lemma package_id_not_idempotent :
  package_id example_recipe = Ok (tt, set_info_options ∅ example_recipe) ∧
  package_id (set_info_options ∅ example_recipe) =
    Raise (MissingOption "use_picolibc") ∧
  package_id (set_info_options ∅ example_recipe) ≠
    Ok (tt, set_info_options ∅ example_recipe).
Proof.
  split; [reflexivity|]. split; [reflexivity|]. discriminate.
Qed.

Lemma recipe_deterministic_example :
  (∃ r, requirements_outcome example_library_requirements example_recipe r ∧
        requirements_outcome example_library_requirements stale_recipe r) ∧
  (∃ l f, package_info_outcome "/pkg" example_recipe l f ∧
          package_info_outcome "/pkg" stale_recipe l f) ∧
  (∃ r, package_id_outcome example_recipe r ∧ package_id_outcome stale_recipe r).
Proof.
  apply (recipe_deterministic example_library_requirements "/pkg"
           example_settings default_options example_recipe stale_recipe).
  - repeat split; reflexivity.
  - repeat split; reflexivity.
Defined.

(** ** Instances of the further properties *)

Lemma requirements_raises_example :
  requirements example_library_requirements
    (new_recipe example_settings options_without_picolibc) =
  Raise (MissingOption "use_picolibc").
Proof.
  apply (requirements_raises_iff example_library_requirements
           (new_recipe example_settings options_without_picolibc)).
  split; [reflexivity|]. split; [reflexivity|].
  right. split; [eexists; reflexivity|]. split; reflexivity.
Defined.

Lemma package_id_raises_example :
  package_id (new_recipe example_settings options_without_picolibc) =
  Raise (MissingOption "use_picolibc").
Proof.
  apply (package_id_raises_iff
           (new_recipe example_settings options_without_picolibc)).
  left. split; reflexivity.
Defined.

Lemma package_id_ignores_option_values_example :
  ∃ reduced,
    package_id_outcome example_recipe (Ok reduced) ∧
    package_id_outcome (new_recipe example_settings options_off) (Ok reduced).
Proof.
  apply (package_id_ignores_option_values
           example_recipe (new_recipe example_settings options_off)).
  - split; eexists; reflexivity.
  - split; eexists; reflexivity.
  - intros k Hk. unfold option_names in Hk.
    apply not_elem_of_cons in Hk as [Hk1 Hk].
    apply not_elem_of_cons in Hk as [Hk2 _].
    simpl. unfold default_options, options_off.
    rewrite !lookup_insert_ne by done. reflexivity.
Defined.

Lemma requirements_package_id_commute_example :
  (requirements example_library_requirements ;; package_id) example_recipe =
  (package_id ;; requirements example_library_requirements) example_recipe.
Proof.
  apply (requirements_package_id_commute example_library_requirements
           example_recipe).
  left. eexists. reflexivity.
Defined.

Lemma package_info_reads_only_example :
  ∃ l f,
    package_info_outcome "/pkg" example_recipe l f ∧
    package_info_outcome "/pkg" (new_recipe gcc13_debug_settings options_off) l f.
Proof.
  apply (package_info_reads_only "/pkg" example_recipe
           (new_recipe gcc13_debug_settings options_off)); reflexivity.
Defined.

Lemma requirements_reads_only_example :
  ∃ r,
    requirements_outcome example_library_requirements example_recipe r ∧
    requirements_outcome example_library_requirements
      (new_recipe cortex_m7_debug_settings default_options) r.
Proof.
  apply (requirements_reads_only example_library_requirements example_recipe
           (new_recipe cortex_m7_debug_settings default_options));
    reflexivity.
Defined.

Lemma requirements_declares_at_most_these_example :
  ∃ own,
    example_library_requirements ++
      [ {| ref := "prebuilt-picolibc/13.2"; transitive_headers := None |} ] =
    example_library_requirements ++ own ∧
    own `sublist_of`
      [ {| ref := "libhal-exceptions/[^1.0.0]"; transitive_headers := Some true |};
        {| ref := "prebuilt-picolibc/13.2"; transitive_headers := None |} ].
Proof.
  apply (requirements_declares_at_most_these example_library_requirements
           (new_recipe gcc13_debug_settings
              (<["use_libhal_exceptions" := false]> default_options))).
  reflexivity.
Defined.

Lemma requirements_determine_options_example :
  options example_recipe !! "use_libhal_exceptions" =
    options stale_recipe !! "use_libhal_exceptions" ∧
  options example_recipe !! "use_picolibc" = options stale_recipe !! "use_picolibc".
Proof.
  apply (requirements_determine_options example_library_requirements
           example_recipe stale_recipe
           (example_library_requirements ++
            [ {| ref := "libhal-exceptions/[^1.0.0]"; transitive_headers := Some true |};
              {| ref := "prebuilt-picolibc/12.2"; transitive_headers := None |} ]));
    reflexivity.
Defined.
